(** * BookingTests: the booking-flow test class of RestAPI.py

    A shallow embedding of [src/ebrahim_hossain/RestAPI.py] and the
    properties of its six test methods.

    The class keeps three class attributes ([token], [booking_id],
    [booking_data]); every test method reads and writes them, talks to the
    remote service through [requests], and ends in one of the outcomes
    [unittest] reports.  The embedding therefore uses

    - a type of Python values as [json] decoding produces them,
    - a store of dictionary objects for the dictionaries the program keeps
      (the fixture, its nested [bookingdates], the copy made by the update
      test), so that sharing between a dictionary and its shallow copy is
      visible; a dictionary written as a literal in the argument of a call
      is used once and is given as a value,
    - a state-and-exception monad for the body of a test method,
    - the remote service as a function from the calls made so far and the
      next call to what that call does (return a response or raise).
*)

From Stdlib Require Import ZArith String PrimFloat.
From stdpp Require Import base option list strings pretty.

Set Warnings "-register-all".
Local Open Scope string_scope.
Local Open Scope list_scope.
Local Open Scope Z_scope.

(** ** Python values *)

(** Values as [response.json()] yields them: [None], [bool], [int],
    [float], [str], [list] and [dict].  A dictionary is kept as its items
    in order; the first entry of a key is the key's value. *)
Inductive pyval :=
| PNone
| PBool (b : bool)
| PInt (n : Z)
| PFloat (x : float)
| PStr (s : string)
| PList (xs : list pyval)
| PDict (items : list (string * pyval)).

(** [bool(v)], as [not v] uses it. *)
Definition truthy (v : pyval) : bool :=
  match v with
  | PNone => false
  | PBool b => b
  | PInt n => negb (n =? 0)
  | PFloat x => negb (PrimFloat.eqb x 0%float)
  | PStr s => match s with EmptyString => false | _ => true end
  | PList xs => match xs with [] => false | _ => true end
  | PDict items => match items with [] => false | _ => true end
  end.

(** [v is None]. *)
Definition is_none (v : pyval) : bool :=
  match v with PNone => true | _ => false end.

Section Dict.
Context {V : Type}.

(** [d[k]] when present. *)
Fixpoint dict_get (k : string) (d : list (string * V)) : option V :=
  match d with
  | [] => None
  | (k', v) :: d' => if String.eqb k' k then Some v else dict_get k d'
  end.

(** [d[k] = v]: an existing key keeps its place, a new one goes last. *)
Fixpoint dict_set (k : string) (v : V) (d : list (string * V))
  : list (string * V) :=
  match d with
  | [] => [(k, v)]
  | (k', v') :: d' =>
      if String.eqb k' k then (k', v) :: d' else (k', v') :: dict_set k v d'
  end.

(** [d.update(other)]. *)
Definition dict_update (other d : list (string * V)) : list (string * V) :=
  foldl (fun acc kv => dict_set kv.1 kv.2 acc) d other.
End Dict.

(** ** Exceptions *)

(** What is written between the brackets of [v[...]]. *)
Inductive subscript :=
| Key (k : string)
| SliceTo (n : nat).

(** The three ways the class makes [unittest] raise its
    [failureException] (an [AssertionError]). *)
Inductive failed_check :=
| Explicit (msg : string)                         (* self.fail(msg) *)
| NotEqual (first second : pyval) (msg : string)  (* assertEqual *)
| UnexpectedlyNone (msg : string).                (* assertIsNotNone *)

(** Every exception below is a subclass of [Exception], so
    [except Exception] catches each of them. *)
Inductive exn :=
| SkipTest (reason : string)                (* unittest.SkipTest *)
| AssertionError (c : failed_check)
| KeyError (k : string)                     (* d[k], no such key *)
| TypeError (v : pyval) (i : subscript)     (* v[i], v has no such item *)
| AttributeError (v : pyval) (name : string)
| ValueError (what : string)                (* json: circular structure *)
| RequestException (what : string)          (* raised by an HTTP call *)
| JSONDecodeError (what : string)           (* raised by response.json() *)
| UnicodeEncodeError (what : string).       (* print: text stdout refuses *)

(** ** Services of the interpreter and of unittest

    The text of [str(e)], the text an f-string gives a value, [==] on
    values other than strings and pairs of integers, and which strings the
    standard output can encode are computed by Python and its libraries.
    The test class only passes them on, so they are taken as given. *)
Record python := {
  exn_text : exn -> string;
  format : pyval -> string;
  other_eq : pyval -> pyval -> bool;
  encodable : string -> bool
}.

(** Whether a line that interpolates [v] can be written.  The words of the
    source, a number, the [repr] of a list or of a dictionary and the JSON
    text of [json.dumps] are plain text; a [str] that came out of a JSON
    body is written as it is, and the standard output refuses one it
    cannot encode (on the default output, one that holds a surrogate). *)
Definition printable (py : python) (v : pyval) : bool :=
  match v with
  | PStr s => encodable py s
  | _ => true
  end.

(** [a == b].  A [str] is equal to a [str] with the same characters and to
    nothing else; two [int] are equal when they are the same number. *)
Definition py_eq (py : python) (a b : pyval) : bool :=
  match a, b with
  | PStr s, PStr t => String.eqb s t
  | PStr _, _ | _, PStr _ => false
  | PInt m, PInt n => m =? n
  | _, _ => other_eq py a b
  end.

(** [v[i]]: a key of a dictionary, or a prefix of a string or of a list.
    Anything else raises (for the slice of a dictionary, a [TypeError]
    before Python 3.12 and a [KeyError] from it on; the class treats both
    alike). *)
Definition getitem (v : pyval) (i : subscript) : exn + pyval :=
  match v, i with
  | PDict d, Key k =>
      match dict_get k d with
      | Some x => inr x
      | None => inl (KeyError k)
      end
  | PStr s, SliceTo n => inr (PStr (substring 0 n s))
  | PList xs, SliceTo n => inr (PList (take n xs))
  | _, _ => inl (TypeError v i)
  end.

(** [v.get(k)]: only a dictionary has the method; a missing key gives
    [None]. *)
Definition get_method (v : pyval) (k : string) : exn + pyval :=
  match v with
  | PDict d => inr (default PNone (dict_get k d))
  | _ => inl (AttributeError v "get")
  end.

(** ** The store of dictionary objects *)

Definition loc := nat.

(** A field of a dictionary object holds a value or another object. *)
Inductive field :=
| Val (v : pyval)
| Ref (l : loc).

Definition obj := list (string * field).

(** Objects are never freed; a location is an index.  A location outside
    the store (no Python state has one) reads as an empty dictionary. *)
Definition store := list obj.

Definition alloc (o : obj) (h : store) : loc * store :=
  (length h, h ++ [o]).

Definition deref (h : store) (l : loc) : obj := h !!! l.

(** The value of an object, nested objects included.  The fuel bounds the
    nesting; it runs out on a circular structure. *)
Fixpoint freeze (fuel : nat) (h : store) (l : loc) : option pyval :=
  match fuel with
  | O => None
  | S n =>
      PDict <$> mapM (fun kv : string * field =>
                        match kv.2 with
                        | Val v => Some (kv.1, v)
                        | Ref l' => pair kv.1 <$> freeze n h l'
                        end) (deref h l)
  end.

(** A chain of distinct objects is no longer than the store. *)
Definition snapshot (h : store) (l : loc) : option pyval :=
  freeze (S (length h)) h l.

(** ** Requests and responses *)

Inductive method := GET | POST | PUT | DELETE.

(** One call of [requests.get], [.post], [.put] or [.delete] with its
    keyword arguments; an absent keyword is [None] or empty. *)
Record request := {
  meth : method;
  url : string;
  json_arg : option pyval;
  headers : list (string * string);
  timeout : option Z
}.

(** The part of a response the tests look at; [json] is what
    [response.json()] does. *)
Record response := {
  status_code : Z;
  text : string;
  json : exn + pyval
}.

(** The remote service and the transport: given the calls made so far, what
    the next call does. *)
Definition world := list request -> request -> exn + response.

(** ** State of a run *)

(** The class attributes of [BookingTests], the store, and the calls made
    so far. *)
Record state := {
  token : pyval;
  booking_id : pyval;
  booking_data : loc;
  heap : store;
  calls : list request
}.

Definition with_token (v : pyval) (st : state) : state :=
  {| token := v; booking_id := booking_id st; booking_data := booking_data st;
     heap := heap st; calls := calls st |}.

Definition with_booking_id (v : pyval) (st : state) : state :=
  {| token := token st; booking_id := v; booking_data := booking_data st;
     heap := heap st; calls := calls st |}.

Definition with_heap (h : store) (st : state) : state :=
  {| token := token st; booking_id := booking_id st;
     booking_data := booking_data st; heap := h; calls := calls st |}.

Definition with_calls (cs : list request) (st : state) : state :=
  {| token := token st; booking_id := booking_id st;
     booking_data := booking_data st; heap := heap st; calls := cs |}.

(** ** The monad of a test body *)

Definition M (A : Type) : Type := state -> (exn + A) * state.

#[global] Instance M_ret : MRet M := fun A a st => (inr a, st).

#[global] Instance M_bind : MBind M := fun A B f m st =>
  match m st with
  | (inr a, st') => f a st'
  | (inl e, st') => (inl e, st')
  end.

Definition raise {A} (e : exn) : M A := fun st => (inl e, st).

Definition lift {A} (r : exn + A) : M A := fun st => (r, st).

Definition gets {A} (f : state -> A) : M A := fun st => (inr (f st), st).

Definition modify (f : state -> state) : M unit := fun st => (inr tt, f st).

(** [try: body  except Exception as e: handler]: what the body did to the
    state before it raised stays done. *)
Definition try_except {A} (body : M A) (handler : exn -> M A) : M A :=
  fun st =>
    match body st with
    | (inl e, st') => handler e st'
    | ok => ok
    end.

(** [if c: body]. *)
Definition when (c : bool) (body : M unit) : M unit :=
  if c then body else mret tt.

(** *** unittest *)

Definition fail {A} (msg : string) : M A :=
  raise (AssertionError (Explicit msg)).

Definition skipTest {A} (reason : string) : M A := raise (SkipTest reason).

Definition assertEqual (py : python) (first second : pyval) (msg : string)
  : M unit :=
  if py_eq py first second then mret tt
  else raise (AssertionError (NotEqual first second msg)).

Definition assertIsNotNone (v : pyval) (msg : string) : M unit :=
  if is_none v then raise (AssertionError (UnexpectedlyNone msg))
  else mret tt.

(** *** dictionaries of the program *)

(** [d.copy()]: a new object with the same fields; nested objects are
    shared with the original. *)
Definition dict_copy (l : loc) : M loc := fun st =>
  let '(l', h') := alloc (deref (heap st) l) (heap st) in
  (inr l', with_heap h' st).

(** [d.update(other)] on the object at [l]. *)
Definition update_method (l : loc) (other : obj) : M unit :=
  modify (fun st =>
    with_heap (<[l := dict_update other (deref (heap st) l)]> (heap st)) st).

(** [d[k]] on the object at [l], as a value. *)
Definition heap_getitem (l : loc) (k : string) : M pyval := fun st =>
  match dict_get k (deref (heap st) l) with
  | None => (inl (KeyError k), st)
  | Some (Val v) => (inr v, st)
  | Some (Ref l') =>
      match snapshot (heap st) l' with
      | Some v => (inr v, st)
      | None => (inl (ValueError "Circular reference detected"), st)
      end
  end.

(** The JSON encoding of the object at [l], done by [json.dumps] and by
    the [json=] keyword of a call. *)
Definition json_dumps (l : loc) : M pyval := fun st =>
  match snapshot (heap st) l with
  | Some v => (inr v, st)
  | None => (inl (ValueError "Circular reference detected"), st)
  end.

Definition response_json (r : response) : M pyval := lift (json r).

(** [print(f"...{v}...")]: nothing of the output is kept; the call raises
    when the line cannot be written. *)
Definition print (py : python) (v : pyval) : M unit :=
  if printable py v then mret tt
  else raise (UnicodeEncodeError (format py v)).

(** ** The test class *)

(** *** Configuration *)

Definition BASE_URL : string := "https://restful-booker.herokuapp.com".
Definition USERNAME : string := "admin".
Definition PASSWORD : string := "password123".

(** *** setUpClass *)

Definition bookingdates_literal : obj :=
  [("checkin", Val (PStr "2023-01-01"));
   ("checkout", Val (PStr "2023-01-05"))].

Definition booking_data_literal (dates : loc) : obj :=
  [("firstname", Val (PStr "Ebrahim"));
   ("lastname", Val (PStr "Hossain"));
   ("totalprice", Val (PInt 100));
   ("depositpaid", Val (PBool true));
   ("bookingdates", Ref dates);
   ("additionalneeds", Val (PStr "Breakfast"))].

(** The state the class method leaves: both attributes [None], and the
    fixture built from its literal, the inner dictionary first. *)
Definition setUpClass : state :=
  let '(dates, h1) := alloc bookingdates_literal [] in
  let '(data, h2) := alloc (booking_data_literal dates) h1 in
  {| token := PNone; booking_id := PNone; booking_data := data;
     heap := h2; calls := [] |}.

(** What [unittest] reports for one method: success, a failure (the method
    raised [AssertionError]), a skip (it raised [SkipTest]) or an error (any
    other exception left the method). *)
Inductive StepResult :=
| Passed
| Failed (reason : string)
| Skipped (reason : string)
| Errored (e : exn).

Section Tests.
Context (py : python) (server : world).

(** *** requests *)

(** A call is recorded and answered by the world. *)
Definition send (r : request) : M response := fun st =>
  (server (calls st) r, with_calls (calls st ++ [r]) st).

Definition requests_get (u : string) (t : option Z) : M response :=
  send {| meth := GET; url := u; json_arg := None; headers := [];
          timeout := t |}.

Definition requests_post (u : string) (body : pyval) (t : option Z)
  : M response :=
  send {| meth := POST; url := u; json_arg := Some body; headers := [];
          timeout := t |}.

Definition requests_put (u : string) (body : pyval)
    (hs : list (string * string)) (t : option Z) : M response :=
  send {| meth := PUT; url := u; json_arg := Some body; headers := hs;
          timeout := t |}.

Definition requests_delete (u : string) (hs : list (string * string))
    (t : option Z) : M response :=
  send {| meth := DELETE; url := u; json_arg := None; headers := hs;
          timeout := t |}.

(** [assertEqual(response.status_code, code, msg)]. *)
Definition assert_status (r : response) (code : Z) (msg : string) : M unit :=
  assertEqual py (PInt (status_code r)) (PInt code) msg.

(** *** The test methods

    A [print] is kept where the line it writes holds a value taken from
  a JSON body, or where evaluating what it prints can raise; the other
  lines printed are words of the source, status codes, the JSON text of
  [json.dumps] and the text of a response, which [requests] decodes
  with replacement. *)

Definition test_00_verify_api_available : M unit :=
  try_except
    (response ← requests_get BASE_URL (Some 5);
     assert_status response 200
       ("API not reachable. Status: "
          +:+ format py (PInt (status_code response))))
    (fun e => fail ("API connection failed: " +:+ exn_text py e)).

Definition test_01_authenticate : M unit :=
  let auth_url := BASE_URL +:+ "/auth" in
  let auth_data :=
    PDict [("username", PStr USERNAME); ("password", PStr PASSWORD)] in
  try_except
    (response ← requests_post auth_url auth_data (Some 5);
     assert_status response 200
       ("Auth failed. Status: "
          +:+ format py (PInt (status_code response)));;
     body ← response_json response;
     tok ← lift (get_method body "token");
     assertIsNotNone tok "No token in response";;
     modify (with_token tok);;
     (* print(f"Authentication successful. Token: {token[:5]}...") *)
     piece ← lift (getitem tok (SliceTo 5));
     print py piece)
    (fun e => fail ("Authentication failed: " +:+ exn_text py e)).

Definition test_02_create_booking : M unit :=
  tok ← gets token;
  when (negb (truthy tok)) (skipTest "No authentication token available");;
  let booking_url := BASE_URL +:+ "/booking" in
  data ← gets booking_data;
  (* print(f"Booking data: {json.dumps(self.booking_data, indent=2)}") *)
  _ ← json_dumps data;
  try_except
    (payload ← json_dumps data;
     response ← requests_post booking_url payload (Some 5);
     assert_status response 200
       ("Create booking failed. Status: "
          +:+ format py (PInt (status_code response)));;
     response_data ← response_json response;
     bid ← lift (get_method response_data "bookingid");
     assertIsNotNone bid
       ("No bookingid in response. Full response: " +:+ text response);;
     modify (with_booking_id bid);;
     (* print(f"Booking created successfully! ID: {booking_id}") *)
     print py bid)
    (fun e => fail ("Booking creation failed: " +:+ exn_text py e)).

Definition test_03_get_booking : M unit :=
  bid ← gets booking_id;
  when (negb (truthy bid))
    (skipTest "No booking ID available (creation likely failed)");;
  let booking_url := BASE_URL +:+ "/booking/" +:+ format py bid in
  (* print(f"Endpoint: {booking_url}") *)
  print py bid;;
  try_except
    (response ← requests_get booking_url (Some 5);
     assert_status response 200
       ("Get booking failed. Status: "
          +:+ format py (PInt (status_code response)));;
     booking ← response_json response;
     first ← lift (getitem booking (Key "firstname"));
     data ← gets booking_data;
     second ← heap_getitem data "firstname";
     assertEqual py first second "Firstname doesn't match")
    (fun e => fail ("Failed to get booking: " +:+ exn_text py e)).

Definition test_04_update_booking : M unit :=
  bid ← gets booking_id;
  tok ← gets token;
  when (negb (truthy bid) || negb (truthy tok))
    (skipTest "Missing booking ID or token");;
  let update_url := BASE_URL +:+ "/booking/" +:+ format py bid in
  data ← gets booking_data;
  updated_data ← dict_copy data;
  update_method updated_data
    [("firstname", Val (PStr "UpdatedName"));
     ("lastname", Val (PStr "UpdatedLastName"))];;
  let hs := [("Cookie", "token=" +:+ format py tok)] in
  (* print(f"Endpoint: {update_url}") *)
  print py bid;;
  (* print(f"Update data: {json.dumps(updated_data, indent=2)}") *)
  _ ← json_dumps updated_data;
  try_except
    (payload ← json_dumps updated_data;
     response ← requests_put update_url payload hs (Some 5);
     assert_status response 200
       ("Update failed. Status: "
          +:+ format py (PInt (status_code response)));;
     updated_booking ← response_json response;
     first ← lift (getitem updated_booking (Key "firstname"));
     assertEqual py first (PStr "UpdatedName") "Firstname not updated")
    (fun e => fail ("Failed to update booking: " +:+ exn_text py e)).

Definition test_05_delete_booking : M unit :=
  bid ← gets booking_id;
  tok ← gets token;
  when (negb (truthy bid) || negb (truthy tok))
    (skipTest "Missing booking ID or token");;
  let delete_url := BASE_URL +:+ "/booking/" +:+ format py bid in
  let hs := [("Cookie", "token=" +:+ format py tok)] in
  (* print(f"Endpoint: {delete_url}") *)
  print py bid;;
  try_except
    (response ← requests_delete delete_url hs (Some 5);
     assert_status response 201
       ("Delete failed. Status: "
          +:+ format py (PInt (status_code response)));;
     (* Verify deletion *)
     get_response ← requests_get delete_url None;
     assert_status get_response 404 "Booking still exists after deletion")
    (fun e => fail ("Failed to delete booking: " +:+ exn_text py e)).

(** *** Running a test method *)

(** The text of the [AssertionError] that left the method. *)
Definition failure_text (c : failed_check) : string :=
  match c with
  | Explicit msg => msg
  | _ => exn_text py (AssertionError c)
  end.

Definition run_test (t : M unit) (st : state) : StepResult * state :=
  match t st with
  | (inr _, st') => (Passed, st')
  | (inl (SkipTest reason), st') => (Skipped reason, st')
  | (inl (AssertionError c), st') => (Failed (failure_text c), st')
  | (inl e, st') => (Errored e, st')
  end.

(** The methods in the order [unittest] runs them (by name). *)
Definition suite : list (M unit) :=
  [test_00_verify_api_available; test_01_authenticate;
   test_02_create_booking; test_03_get_booking;
   test_04_update_booking; test_05_delete_booking].

(** The text each method puts before [str(e)] in its handler. *)
Definition failure_prefix : list string :=
  ["API connection failed: "; "Authentication failed: ";
   "Booking creation failed: "; "Failed to get booking: ";
   "Failed to update booking: "; "Failed to delete booking: "].

(** Every method is run, whatever the earlier ones did. *)
Fixpoint run_tests (ts : list (M unit)) (st : state)
  : list StepResult * state :=
  match ts with
  | [] => ([], st)
  | t :: ts' =>
      let '(r, st1) := run_test t st in
      let '(rs, st2) := run_tests ts' st1 in
      (r :: rs, st2)
  end.

End Tests.

(** ** The requests of the six methods *)

Section Requests.
Context (py : python).

Definition availability_request : request :=
  {| meth := GET; url := BASE_URL; json_arg := None; headers := [];
     timeout := Some 5 |}.

Definition auth_request : request :=
  {| meth := POST; url := BASE_URL +:+ "/auth";
     json_arg := Some (PDict [("username", PStr USERNAME);
                              ("password", PStr PASSWORD)]);
     headers := []; timeout := Some 5 |}.

Definition create_request (payload : pyval) : request :=
  {| meth := POST; url := BASE_URL +:+ "/booking";
     json_arg := Some payload; headers := []; timeout := Some 5 |}.

(** The address of the booking [bid]. *)
Definition booking_url (bid : pyval) : string :=
  BASE_URL +:+ "/booking/" +:+ format py bid.

Definition cookie (tok : pyval) : list (string * string) :=
  [("Cookie", "token=" +:+ format py tok)].

Definition get_request (bid : pyval) : request :=
  {| meth := GET; url := booking_url bid; json_arg := None; headers := [];
     timeout := Some 5 |}.

Definition update_request (bid tok payload : pyval) : request :=
  {| meth := PUT; url := booking_url bid; json_arg := Some payload;
     headers := cookie tok; timeout := Some 5 |}.

Definition delete_request (bid tok : pyval) : request :=
  {| meth := DELETE; url := booking_url bid; json_arg := None;
     headers := cookie tok; timeout := Some 5 |}.

(** The check that follows a delete: no header, no [timeout] keyword. *)
Definition confirm_request (bid : pyval) : request :=
  {| meth := GET; url := booking_url bid; json_arg := None; headers := [];
     timeout := None |}.
End Requests.

(** The reasons the methods give to [skipTest]. *)
Definition no_token_reason : string := "No authentication token available".
Definition no_booking_reason : string :=
  "No booking ID available (creation likely failed)".
Definition missing_reason : string := "Missing booking ID or token".

(** ** The fixture *)

(** The value of the fixture as [setUpClass] builds it. *)
Definition fixture_json : pyval :=
  PDict [("firstname", PStr "Ebrahim");
         ("lastname", PStr "Hossain");
         ("totalprice", PInt 100);
         ("depositpaid", PBool true);
         ("bookingdates", PDict [("checkin", PStr "2023-01-01");
                                 ("checkout", PStr "2023-01-05")]);
         ("additionalneeds", PStr "Breakfast")].

(** What the update test writes over its copy. *)
Definition sentinels : obj :=
  [("firstname", Val (PStr "UpdatedName"));
   ("lastname", Val (PStr "UpdatedLastName"))].

(** The copy after the update: two names replaced, the rest as in the
    fixture, the nested dictionary the very object of the fixture. *)
Definition updated_literal (dates : loc) : obj :=
  [("firstname", Val (PStr "UpdatedName"));
   ("lastname", Val (PStr "UpdatedLastName"));
   ("totalprice", Val (PInt 100));
   ("depositpaid", Val (PBool true));
   ("bookingdates", Ref dates);
   ("additionalneeds", Val (PStr "Breakfast"))].

Definition updated_json : pyval :=
  PDict [("firstname", PStr "UpdatedName");
         ("lastname", PStr "UpdatedLastName");
         ("totalprice", PInt 100);
         ("depositpaid", PBool true);
         ("bookingdates", PDict [("checkin", PStr "2023-01-01");
                                 ("checkout", PStr "2023-01-05")]);
         ("additionalneeds", PStr "Breakfast")].

(** The fixture is where [setUpClass] put it and the objects [setUpClass]
    built are as it built them; the store may have grown. *)
Definition fixture_intact (st : state) : Prop :=
  booking_data st = booking_data setUpClass
  ∧ heap setUpClass `prefix_of` heap st.

Section Runs.
Context (py : python) (server : world).

Definition result (t : M unit) (st : state) : StepResult :=
  (run_test py t st).1.

Definition after (t : M unit) (st : state) : state :=
  (run_test py t st).2.

(** The states a run of the class can be in: the one [setUpClass] leaves,
    and the one any test method leaves when started in such a state. *)
Inductive reachable : state -> Prop :=
| reach_setUpClass : reachable setUpClass
| reach_test t st :
    t ∈ suite py server -> reachable st -> reachable (after t st).

(** The method is skipped for the given reason, from [st] as from
    [unset], and leaves either as it found it. *)
Definition skips_like_unset (t : M unit) (reason : string)
    (st unset : state) : Prop :=
  run_test py t st = (Skipped reason, st)
  ∧ run_test py t unset = (Skipped reason, unset).

(** The state in which the method number [k] of the suite starts. *)
Definition before (k : nat) : state :=
  (run_tests py (take k (suite py server)) setUpClass).2.

End Runs.

(** ** What a method is expected to do, read off its first lines and its
    calls *)

(** The reason for which the method number [k] skips in [st], if it does:
    the guards at the head of the last four methods. *)
Definition skip_reason (k : nat) (st : state) : option string :=
  match k with
  | 2%nat => if truthy (token st) then None else Some no_token_reason
  | 3%nat => if truthy (booking_id st) then None else Some no_booking_reason
  | 4%nat | 5%nat =>
      if truthy (booking_id st) && truthy (token st) then None
      else Some missing_reason
  | _ => None
  end.

Section Expected.
Context (py : python) (server : world).

(** The check the delete test adds to its delete call: made only when
    the delete was answered with status 201. *)
Definition confirm_after (st : state) : list request :=
  match server (calls st)
          (delete_request py (booking_id st) (token st)) with
  | inr r =>
      if status_code r =? 201 then [confirm_request py (booking_id st)]
      else []
  | inl _ => []
  end.

End Expected.

(** ** Concrete runs

    One choice of the interpreter's services, to run the methods on
    concrete inputs, in the manner of CPython for the values and exceptions
    of the examples.  No statement below depends on the choice. *)

Definition plain_format (v : pyval) : string :=
  match v with
  | PNone => "None"
  | PBool true => "True"
  | PBool false => "False"
  | PInt n => pretty n
  | PStr s => s
  | _ => "<value>"
  end.

Definition type_name (v : pyval) : string :=
  match v with
  | PNone => "NoneType"
  | PBool _ => "bool"
  | PInt _ => "int"
  | PFloat _ => "float"
  | PStr _ => "str"
  | PList _ => "list"
  | PDict _ => "dict"
  end.

Definition plain_text (e : exn) : string :=
  match e with
  | SkipTest w | ValueError w | RequestException w | JSONDecodeError w => w
  | UnicodeEncodeError w => "'utf-8' codec can't encode characters: " +:+ w
  | AssertionError (Explicit m) => m
  | AssertionError (NotEqual a b m) =>
      plain_format a +:+ " != " +:+ plain_format b +:+ " : " +:+ m
  | AssertionError (UnexpectedlyNone m) => "unexpectedly None : " +:+ m
  | KeyError k => "'" +:+ k +:+ "'"
  | TypeError v _ => "'" +:+ type_name v +:+ "' object is not subscriptable"
  | AttributeError v name =>
      "'" +:+ type_name v +:+ "' object has no attribute '" +:+ name +:+ "'"
  end.

(** A [str] of the examples is kept as its UTF-8 bytes, a surrogate as the
    three bytes 237, 160 to 191, and one more: the default output refuses
    a string that holds one. *)
Fixpoint holds_surrogate (s : string) : bool :=
  match s with
  | String a (String b _ as rest) =>
      (Nat.eqb (Ascii.nat_of_ascii a) 237
       && Nat.leb 160 (Ascii.nat_of_ascii b))
      || holds_surrogate rest
  | _ => false
  end.

Definition plain : python :=
  {| exn_text := plain_text; format := plain_format;
     other_eq := fun _ _ => false;
     encodable := fun s => negb (holds_surrogate s) |}.

(** The text of a JSON body, for the responses of the examples (their
    strings need no escape and they hold no float). *)
Definition dquote : string := String (Ascii.ascii_of_nat 34) EmptyString.

Fixpoint json_text (v : pyval) : string :=
  match v with
  | PNone => "null"
  | PBool true => "true"
  | PBool false => "false"
  | PInt n => pretty n
  | PFloat _ => "<float>"
  | PStr s => dquote +:+ s +:+ dquote
  | PList xs =>
      "[" +:+ String.concat "," (map json_text xs) +:+ "]"
  | PDict items =>
      "{" +:+ String.concat ","
                (map (fun kv : string * pyval =>
                        dquote +:+ kv.1 +:+ dquote +:+ ":" +:+ json_text kv.2)
                     items)
          +:+ "}"
  end.

Definition json_reply (code : Z) (body : pyval) : exn + response :=
  inr {| status_code := code; text := json_text body; json := inr body |}.

Definition text_reply (code : Z) (txt : string) : exn + response :=
  inr {| status_code := code; text := txt;
         json := inl (JSONDecodeError "Expecting value") |}.

(** Whether the booking at [u] was deleted by an earlier call. *)
Definition deleted (history : list request) (u : string) : bool :=
  existsb (fun q => match meth q with
                    | DELETE => String.eqb (url q) u
                    | _ => false
                    end) history.

(** The booking last sent to the service. *)
Definition latest_booking (history : list request) : pyval :=
  default (PDict [])
    (last (omap (fun q => if String.eqb (url q) (BASE_URL +:+ "/auth")
                          then None else json_arg q) history)).

(** A service in the manner of the one the tests address; what it answers
    to [POST /auth] and to [POST /booking] is left open. *)
Definition booker (auth created : exn + response) : world :=
  fun history r =>
    match meth r with
    | GET =>
        if String.eqb (url r) BASE_URL then text_reply 200 "Welcome"
        else if deleted history (url r) then text_reply 404 "Not Found"
        else json_reply 200 (latest_booking history)
    | POST =>
        if String.eqb (url r) (BASE_URL +:+ "/auth") then auth else created
    | PUT => json_reply 200 (default (PDict []) (json_arg r))
    | DELETE => text_reply 201 "Created"
    end.

(** The service of the expected trace of the specification. *)
Definition good_booker : world :=
  booker (json_reply 200 (PDict [("token", PStr "abc123def456")]))
         (json_reply 200 (PDict [("bookingid", PInt 7);
                                 ("booking", fixture_json)])).

(** A service whose token is the empty string. *)
Definition empty_token_booker : world :=
  booker (json_reply 200 (PDict [("token", PStr "")]))
         (json_reply 200 (PDict [("bookingid", PInt 7);
                                 ("booking", fixture_json)])).

(** A service whose token is a number. *)
Definition numeric_token_booker : world :=
  booker (json_reply 200 (PDict [("token", PInt 12345)]))
         (json_reply 200 (PDict [("bookingid", PInt 7);
                                 ("booking", fixture_json)])).

(** A service that numbers its first booking 0. *)
Definition zero_booker : world :=
  booker (json_reply 200 (PDict [("token", PStr "abc123def456")]))
         (json_reply 200 (PDict [("bookingid", PInt 0);
                                 ("booking", fixture_json)])).

(** No service: every call raises. *)
Definition no_service : world :=
  fun _ _ => inl (RequestException "Connection refused").

(** A service that refuses the authentication. *)
Definition refusing_booker : world :=
  booker (text_reply 403 "Forbidden")
         (json_reply 200 (PDict [("bookingid", PInt 7);
                                 ("booking", fixture_json)])).


(** The text a JSON body writes as a lone high surrogate, U+D83D,
    followed by three letters. *)
Definition lone_surrogate : string :=
  String (Ascii.ascii_of_nat 237)
    (String (Ascii.ascii_of_nat 160)
       (String (Ascii.ascii_of_nat 189) "abc")).

(** A service whose token holds a lone surrogate. *)
Definition surrogate_token_booker : world :=
  booker (json_reply 200 (PDict [("token", PStr lone_surrogate)]))
         (json_reply 200 (PDict [("bookingid", PInt 7);
                                 ("booking", fixture_json)])).

(** A service whose booking identifier is a string with a lone
    surrogate. *)
Definition surrogate_id_booker : world :=
  booker (json_reply 200 (PDict [("token", PStr "abc123def456")]))
         (json_reply 200 (PDict [("bookingid", PStr lone_surrogate);
                                 ("booking", fixture_json)])).

(** ** The words of the specification *)



(** * Properties *)

(** Unfolds a test method down to the calls of the world. *)
Ltac open_test :=
  unfold run_test, test_00_verify_api_available, test_01_authenticate,
    test_02_create_booking, test_03_get_booking, test_04_update_booking,
    test_05_delete_booking, try_except, requests_get, requests_post,
    requests_put, requests_delete, send, assert_status, assertEqual,
    assertIsNotNone, response_json, json_dumps, heap_getitem, dict_copy,
    print,
    update_method, lift, gets, modify, when, skipTest, fail, raise,
    with_token, with_booking_id, with_heap, with_calls,
    mbind, mret, M_bind, M_ret,
    availability_request, auth_request, create_request, get_request,
    update_request, delete_request, confirm_request, booking_url, cookie,
    no_token_reason, no_booking_reason, missing_reason in *;
  cbv zeta in *.

(** Splits on whatever a [match] or an [if] of the goal looks at. *)
Ltac split_run :=
  repeat (simpl in *;
          match goal with
          | |- context [match ?x with _ => _ end] =>
              lazymatch x with
              | context [match _ with _ => _ end] => fail
              | _ => destruct x eqn:?
              end
          end);
  simpl in *.

Section Properties.
Context (py : python) (server : world).

#[local] Arguments dict_update : simpl never.
#[local] Arguments snapshot : simpl never.
#[local] Arguments deref : simpl never.

Local Abbreviation T0 := (test_00_verify_api_available py server).
Local Abbreviation T1 := (test_01_authenticate py server).
Local Abbreviation T2 := (test_02_create_booking py server).
Local Abbreviation T3 := (test_03_get_booking py server).
Local Abbreviation T4 := (test_04_update_booking py server).
Local Abbreviation T5 := (test_05_delete_booking py server).

(** ** What a method leaves alone, and when it is skipped *)

Lemma test_00_keeps_attributes st :
  token (run_test py T0 st).2 = token st
  ∧ booking_id (run_test py T0 st).2 = booking_id st.
Proof. open_test. split_run; done. Qed.

Lemma test_01_keeps_booking_id st :
  booking_id (run_test py T1 st).2 = booking_id st.
Proof. open_test. split_run; done. Qed.

Lemma test_02_keeps_token st :
  token (run_test py T2 st).2 = token st.
Proof. open_test. split_run; done. Qed.

Lemma test_02_skips st :
  truthy (token st) = false →
  run_test py T2 st = (Skipped no_token_reason, st).
Proof. intros H. open_test. rewrite H. reflexivity. Qed.

Lemma test_03_skips st :
  truthy (booking_id st) = false →
  run_test py T3 st = (Skipped no_booking_reason, st).
Proof. intros H. open_test. rewrite H. reflexivity. Qed.

Lemma test_04_skips st :
  truthy (booking_id st) = false ∨ truthy (token st) = false →
  run_test py T4 st = (Skipped missing_reason, st).
Proof.
  intros H. open_test.
  destruct H as [H|H]; rewrite H; [|rewrite orb_true_r]; reflexivity.
Qed.

Lemma test_05_skips st :
  truthy (booking_id st) = false ∨ truthy (token st) = false →
  run_test py T5 st = (Skipped missing_reason, st).
Proof.
  intros H. open_test.
  destruct H as [H|H]; rewrite H; [|rewrite orb_true_r]; reflexivity.
Qed.

(** ** Values and the store *)

Lemma py_eq_str v s : py_eq py v (PStr s) = true ↔ v = PStr s.
Proof.
  destruct v; simpl; rewrite ?String.eqb_eq; split; intros; simplify_eq; done.
Qed.

Lemma deref_lookup (h : store) l o : h !! l = Some o → deref h l = o.
Proof. apply list_lookup_total_correct. Qed.

Lemma deref_alloc (h : store) o : deref (h ++ [o]) (length h) = o.
Proof. apply deref_lookup, list_lookup_middle. done. Qed.

Lemma copy_then_update (h : store) l other :
  <[length h := dict_update other (deref (h ++ [deref h l]) (length h))]>
    (h ++ [deref h l])
  = h ++ [dict_update other (deref h l)].
Proof.
  rewrite deref_alloc, insert_app_r_alt by done.
  by rewrite Nat.sub_diag.
Qed.

Lemma intact_deref st :
  fixture_intact st →
  booking_data st = 1%nat
  ∧ deref (heap st) 0%nat = bookingdates_literal
  ∧ deref (heap st) 1%nat = booking_data_literal 0%nat.
Proof.
  intros [Hb [k Hk]]. rewrite Hb, Hk. done.
Qed.

Lemma snapshot_fixture st :
  fixture_intact st →
  snapshot (heap st) (booking_data st) = Some fixture_json.
Proof.
  intros [Hb [k Hk]]. rewrite Hb, Hk. done.
Qed.

Lemma snapshot_updated (h : store) :
  heap setUpClass `prefix_of` h →
  snapshot (h ++ [updated_literal 0%nat]) (length h) = Some updated_json.
Proof.
  intros [k ->]. unfold snapshot.
  replace (length ((heap setUpClass ++ k) ++ [updated_literal 0%nat]))
    with (S (S (S (length k)))) by (rewrite !length_app; simpl; lia).
  cbn [freeze]. rewrite deref_alloc. done.
Qed.

(** Turns boolean tests left by a case split into propositions. *)
Ltac tidy :=
  repeat match goal with
    | H : (_ =? _)%Z = true |- _ => apply Z.eqb_eq in H
    | H : (_ =? _)%Z = false |- _ => apply Z.eqb_neq in H
    | H : py_eq _ _ (PStr _) = true |- _ => apply py_eq_str in H
    | H : py_eq _ _ (PStr _) = false |- _ =>
        apply not_true_iff_false in H; rewrite py_eq_str in H
    | H : is_none ?v = _ |- _ => destruct v; simpl in H; try discriminate H
    end.

(** Closes the branches of a characterisation after a case split. *)
Ltac settle :=
  tidy; repeat split; intros; destruct_and?;
  repeat match goal with H : ∃ _, _ |- _ => destruct H end;
  destruct_and?; simplify_eq; try lia; try congruence; eauto 12.

(** ** Authenticate *)


(** X8.  The authentication test writes the token only from an answer
    with status 200 whose token is not null: after a call that raised, a
    status other than 200, a body that is not a JSON object or a token
    that is missing or null, the token is as it was. *)
Lemma authenticate_writes_token_from_answer st :
  token (after py T1 st) = token st
  ∨ ∃ r d t,
      server (calls st) auth_request = inr r
      ∧ status_code r = 200
      ∧ json r = inr (PDict d)
      ∧ dict_get "token" d = Some t
      ∧ t ≠ PNone
      ∧ token (after py T1 st) = t.
Proof.
  unfold after. open_test.
  destruct (server (calls st) _) as [e|r] eqn:E; simpl; [by left|].
  destruct (status_code r =? 200) eqn:Hs; simpl; [|by left].
  destruct (json r) as [e|[]] eqn:Hj; simpl; try (by left).
  destruct (dict_get "token" items) as [t|] eqn:Hd; simpl; [|by left].
  destruct (is_none t) eqn:Hn; simpl; [by left|].
  assert (t ≠ PNone) by (intros ->; discriminate Hn).
  apply Z.eqb_eq in Hs.
  right. exists r, items, t.
  destruct (getitem t (SliceTo 5)) as [e|piece]; simpl; [done|].
  by destruct (printable py piece).
Qed.

(** ** CreateResource *)

(** C8, as amended.  With no token the creation test is skipped, sends
    nothing and changes nothing; the reason it gives is the text
    [No authentication token available]. *)
Theorem create_without_token_is_skipped st :
  token st = PNone →
  run_test py T2 st = (Skipped "No authentication token available", st).
Proof. intros H. apply test_02_skips. by rewrite H. Qed.


(** The slip of the two methods that store a value: the value is
    assigned before the last [print] of the [try], so a string that
    cannot be printed is stored by a test that then fails. *)
Lemma authenticate_stores_then_fails st r d s :
  server (calls st) auth_request = inr r →
  status_code r = 200 →
  json r = inr (PDict d) →
  dict_get "token" d = Some (PStr s) →
  encodable py (substring 0 5 s) = false →
  result py T1 st
  = Failed ("Authentication failed: "
              +:+ exn_text py
                    (UnicodeEncodeError
                       (format py (PStr (substring 0 5 s)))))
  ∧ token (after py T1 st) = PStr s.
Proof.
  intros E Hs Hj Hd Hp. unfold result, after. open_test.
  rewrite E. simpl. apply Z.eqb_eq in Hs. rewrite Hs. simpl.
  rewrite Hj. simpl. rewrite Hd. simpl. by rewrite Hp.
Qed.

Lemma create_stores_then_fails st r d s :
  fixture_intact st →
  truthy (token st) = true →
  server (calls st) (create_request fixture_json) = inr r →
  status_code r = 200 →
  json r = inr (PDict d) →
  dict_get "bookingid" d = Some (PStr s) →
  encodable py s = false →
  result py T2 st
  = Failed ("Booking creation failed: "
              +:+ exn_text py (UnicodeEncodeError (format py (PStr s))))
  ∧ booking_id (after py T2 st) = PStr s.
Proof.
  intros Hi Ht E Hs Hj Hd Hp. unfold result, after. open_test.
  rewrite Ht. simpl. rewrite !(snapshot_fixture _ Hi). simpl.
  rewrite ?(snapshot_fixture _ Hi). simpl.
  rewrite E. simpl. apply Z.eqb_eq in Hs. rewrite Hs. simpl.
  rewrite Hj. simpl. rewrite Hd. simpl. by rewrite Hp.
Qed.

(** ** RetrieveResource *)


(** ** DeleteResource *)


(** The last three methods print the address of the booking before
    their [try]: when it cannot be printed the method ends in an error,
    having made no call. *)
Lemma unprintable_address_is_an_error st :
  truthy (booking_id st) = true →
  truthy (token st) = true →
  printable py (booking_id st) = false →
  (result py T3 st
   = Errored (UnicodeEncodeError (format py (booking_id st)))
   ∧ calls (after py T3 st) = calls st)
  ∧ (result py T4 st
     = Errored (UnicodeEncodeError (format py (booking_id st)))
     ∧ calls (after py T4 st) = calls st)
  ∧ (result py T5 st
     = Errored (UnicodeEncodeError (format py (booking_id st)))
     ∧ calls (after py T5 st) = calls st).
Proof.
  intros Hb Ht Hp. unfold result, after. open_test.
  rewrite Hb, Ht. simpl. by rewrite Hp.
Qed.

(** ** Preconditions *)

Lemma run_tests_cons t ts st :
  (run_tests py (t :: ts) st).2 = (run_tests py ts (after py t st)).2.
Proof.
  unfold after. simpl. destruct (run_test py t st) as [r st1]. simpl.
  by destruct (run_tests py ts st1).
Qed.

Lemma before_3 :
  before py server 3 = after py T2 (after py T1 (after py T0 setUpClass)).
Proof. unfold before. simpl take. by rewrite !run_tests_cons. Qed.

(** C10.  A booking identifier that is the integer 0 makes the retrieval,
    update and delete tests skip, and a token that is the empty string
    makes the creation, update and delete tests skip, each with the
    reason and the unchanged state it has when the value is [None]; and
    in a run of the suite the retrieval test is skipped as well when it
    starts with the empty token, since no booking was created. *)
Theorem falsy_value_skips_like_unset st :
  (booking_id st = PInt 0 →
     skips_like_unset py T3 no_booking_reason st (with_booking_id PNone st)
     ∧ skips_like_unset py T4 missing_reason st (with_booking_id PNone st)
     ∧ skips_like_unset py T5 missing_reason st (with_booking_id PNone st))
  ∧ (token st = PStr "" →
     skips_like_unset py T2 no_token_reason st (with_token PNone st)
     ∧ skips_like_unset py T4 missing_reason st (with_token PNone st)
     ∧ skips_like_unset py T5 missing_reason st (with_token PNone st))
  ∧ (token (before py server 3) = PStr "" →
     run_test py T3 (before py server 3)
     = (Skipped no_booking_reason, before py server 3)).
Proof.
  unfold skips_like_unset. split; [|split].
  - intros H.
    repeat split;
      first [ apply test_03_skips | apply test_04_skips; left
            | apply test_05_skips; left ];
      simpl; by rewrite ?H.
  - intros H.
    repeat split;
      first [ apply test_02_skips | apply test_04_skips; right
            | apply test_05_skips; right ];
      simpl; by rewrite ?H.
  - rewrite before_3.
    set (s1 := after py T1 (after py T0 setUpClass)). intros H.
    assert (Hk : token s1 = PStr "").
    { rewrite <- H. symmetry. apply test_02_keeps_token. }
    assert (Hs : after py T2 s1 = s1).
    { unfold after. rewrite test_02_skips; [done|]. by rewrite Hk. }
    rewrite Hs. apply test_03_skips.
    unfold s1, after. rewrite test_01_keeps_booking_id.
    by rewrite (proj2 (test_00_keeps_attributes _)).
Qed.

(** ** The fixture *)

(** Brings the update test, started with its precondition met and the
    fixture in place, to its call. *)
Ltac open_update Hi Hb Ht :=
  open_test; rewrite ?Hb, ?Ht; simpl;
  rewrite ?copy_then_update;
  rewrite ?(proj1 (intact_deref _ Hi));
  rewrite ?(proj2 (proj2 (intact_deref _ Hi)));
  change (dict_update _ (booking_data_literal 0%nat))
    with (updated_literal 0%nat);
  rewrite ?snapshot_updated by apply Hi; simpl;
  rewrite ?snapshot_updated by apply Hi; simpl.

(** The same, past the print of the address. *)
Ltac open_update_printed Hi Hb Ht Hp :=
  open_update Hi Hb Ht; rewrite ?Hp; simpl;
  rewrite ?snapshot_updated by apply Hi; simpl;
  rewrite ?snapshot_updated by apply Hi; simpl.

Lemma intact_intro tok bid bd h cs :
  bd = booking_data setUpClass →
  heap setUpClass `prefix_of` h →
  fixture_intact {| token := tok; booking_id := bid; booking_data := bd;
                    heap := h; calls := cs |}.
Proof. by split. Qed.

(** Closes a goal that the fixture is in place after some branch. *)
Ltac keep_intact Hi :=
  first
    [ exact Hi
    | apply intact_intro;
      [ first [ reflexivity | apply Hi ]
      | first [ apply Hi | apply prefix_app_r, Hi ] ] ].

Lemma update_keeps_fixture st :
  fixture_intact st → fixture_intact (after py T4 st).
Proof.
  intros Hi. unfold after.
  destruct (negb (truthy (booking_id st)) || negb (truthy (token st)))
    eqn:Hc.
  - rewrite test_04_skips; [done|].
    apply orb_true_iff in Hc as [Hc|Hc]; apply negb_true_iff in Hc; auto.
  - apply orb_false_iff in Hc as [Hb Ht].
    apply negb_false_iff in Hb, Ht.
    open_update Hi Hb Ht.
    split_run; keep_intact Hi.
Qed.

Lemma test_keeps_fixture t st :
  t ∈ suite py server →
  fixture_intact st →
  fixture_intact (after py t st).
Proof.
  intros Ht Hi. unfold suite in Ht.
  rewrite !elem_of_cons, elem_of_nil in Ht.
  destruct Ht as [->|[->|[->|[->|[->|[->|[]]]]]]];
    [| | | | apply (update_keeps_fixture _ Hi) |].
  all: unfold after; open_test; split_run; keep_intact Hi.
Qed.

Lemma setUpClass_intact : fixture_intact setUpClass.
Proof. by split. Qed.

Lemma reachable_intact st : reachable py server st → fixture_intact st.
Proof.
  induction 1 as [|t st Ht _ IH];
    [apply setUpClass_intact | by apply test_keeps_fixture].
Qed.

(** C5.  In every state a run can be in, the fixture is the object
    [setUpClass] built and it and its nested dictionary are as built, so
    that its value is the initial one; this still holds after the update
    test, which, when its precondition is met, adds to the store one new
    dictionary, the fields of the fixture with the two names replaced by
    the sentinels (the nested dictionary is shared, not copied), and,
    when the address of the booking can be printed, sends the value of
    that dictionary. *)
Theorem fixture_never_mutated st :
  reachable py server st →
  fixture_intact st
  ∧ snapshot (heap st) (booking_data st) = Some fixture_json
  ∧ fixture_intact (after py T4 st)
  ∧ (truthy (booking_id st) = true →
     truthy (token st) = true →
     heap (after py T4 st) = heap st ++ [updated_literal 0%nat]
     ∧ updated_literal 0%nat
       = dict_update sentinels (deref (heap st) (booking_data st))
     ∧ (printable py (booking_id st) = true →
        calls (after py T4 st)
        = calls st
            ++ [update_request py (booking_id st) (token st)
                  updated_json])).
Proof.
  intros Hr. pose proof (reachable_intact _ Hr) as Hi.
  split; [done|]. split; [by apply snapshot_fixture|].
  split; [by apply update_keeps_fixture|].
  intros Hb Ht. split; [|split].
  - unfold after. open_update Hi Hb Ht. split_run; done.
  - destruct (intact_deref _ Hi) as (-> & _ & ->). done.
  - intros Hp. unfold after. open_update_printed Hi Hb Ht Hp.
    split_run; done.
Qed.

(** ** Failures of the transport *)




Lemma run_tests_length ts st :
  length (run_tests py ts st).1 = length ts.
Proof.
  revert st. induction ts as [|t ts IH]; intros st; [done|].
  simpl. destruct (run_test py t st) as [r st1].
  specialize (IH st1). destruct (run_tests py ts st1). simpl in *.
  by rewrite IH.
Qed.


(** What the theorem below says of one method. *)
Local Abbreviation converts t prefix st :=
  ((∀ pre req e,
      calls (after py t st) = calls st ++ pre ++ [req] →
      server (calls st ++ pre) req = inl e →
      result py t st = Failed (prefix +:+ exn_text py e))
   ∧ (printable py (booking_id st) = true →
      ∀ e, result py t st ≠ Errored e)).

(** The precondition of the update and delete tests, decided. *)
Lemma precondition_cases st :
  (truthy (booking_id st) = false ∨ truthy (token st) = false)
  ∨ (truthy (booking_id st) = true ∧ truthy (token st) = true).
Proof. destruct (truthy (booking_id st)), (truthy (token st)); auto. Qed.







Lemma run_tests_cons_result t ts st :
  (run_tests py (t :: ts) st).1
  = result py t st :: (run_tests py ts (after py t st)).1.
Proof.
  unfold result, after. simpl. destruct (run_test py t st) as [r st1].
  simpl. by destruct (run_tests py ts st1).
Qed.



(** ** Runs of the suite *)

Lemma run_tests_snoc ts t st :
  (run_tests py (ts ++ [t]) st).2 = after py t (run_tests py ts st).2.
Proof.
  revert st. induction ts as [|u ts IH]; intros st.
  - unfold after. simpl. by destruct (run_test py t st).
  - change ((u :: ts) ++ [t]) with (u :: (ts ++ [t])).
    by rewrite !run_tests_cons, IH.
Qed.

(** Every state in which a method of the suite starts can be reached. *)
Lemma before_reachable k : reachable py server (before py server k).
Proof.
  unfold before. induction k as [|k IH]; [apply reach_setUpClass|].
  destruct (suite py server !! k) as [t|] eqn:Hk.
  - rewrite (take_S_r _ _ _ Hk), run_tests_snoc.
    apply reach_test; [|done]. by eapply list_elem_of_lookup_2.
  - apply lookup_ge_None in Hk.
    rewrite take_ge by lia. by rewrite take_ge in IH by lia.
Qed.

(** ** Timeouts *)

(** X9.  Every call a method makes carries [timeout=5], but for the
    check that follows a delete. *)
Lemma calls_carry_timeout t st :
  fixture_intact st →
  t ∈ suite py server →
  ∃ new,
    calls (after py t st) = calls st ++ new
    ∧ Forall (fun r => timeout r = Some 5
                       ∨ r = confirm_request py (booking_id st)) new.
Proof.
  intros Hi Ht. unfold suite in Ht.
  rewrite !elem_of_cons, elem_of_nil in Ht.
  destruct Ht as [->|[->|[->|[->|[->|[->|[]]]]]]]; unfold after.
  5: { destruct (precondition_cases st) as [Hc|[Hb Hk]].
       - rewrite test_04_skips by done. exists []. by rewrite app_nil_r.
       - destruct (printable py (booking_id st)) eqn:Hp.
         + open_update_printed Hi Hb Hk Hp.
           split_run; (eexists [_]; split; [done|]); repeat constructor.
         + open_update Hi Hb Hk. rewrite Hp. simpl.
           exists []. by rewrite app_nil_r. }
  3: { destruct (truthy (token st)) eqn:Hk.
       - open_test. rewrite Hk. simpl. rewrite !(snapshot_fixture _ Hi).
         simpl. rewrite ?(snapshot_fixture _ Hi).
         split_run; (eexists [_]; split; [done|]); repeat constructor.
       - rewrite test_02_skips by done. exists []. by rewrite app_nil_r. }
  all: open_test; split_run;
    first [ exists []; split; [by rewrite app_nil_r|constructor]
          | eexists [_]; split; [done|]; repeat constructor; by left
          | eexists [_; _]; split; [by rewrite <- app_assoc|];
            repeat constructor; by auto ].
Qed.

(** * Further properties of the methods *)

(** ** The calls of each method *)

Lemma test_00_calls st :
  calls (after py T0 st) = calls st ++ [availability_request].
Proof. unfold after. open_test. split_run; done. Qed.

Lemma test_01_calls st :
  calls (after py T1 st) = calls st ++ [auth_request].
Proof. unfold after. open_test. split_run; done. Qed.

Lemma test_02_calls st :
  fixture_intact st →
  truthy (token st) = true →
  calls (after py T2 st) = calls st ++ [create_request fixture_json].
Proof.
  intros Hi Ht. unfold after. open_test. rewrite Ht. simpl.
  rewrite !(snapshot_fixture _ Hi). simpl.
  rewrite ?(snapshot_fixture _ Hi). split_run; done.
Qed.

Lemma test_03_calls st :
  truthy (booking_id st) = true →
  printable py (booking_id st) = true →
  calls (after py T3 st) = calls st ++ [get_request py (booking_id st)].
Proof.
  intros Hb Hp. unfold after. open_test. rewrite Hb, Hp. split_run; done.
Qed.

Lemma test_04_calls st :
  fixture_intact st →
  truthy (booking_id st) = true →
  truthy (token st) = true →
  printable py (booking_id st) = true →
  calls (after py T4 st)
  = calls st
      ++ [update_request py (booking_id st) (token st) updated_json].
Proof.
  intros Hi Hb Ht Hp. unfold after. open_update_printed Hi Hb Ht Hp.
  split_run; done.
Qed.

Lemma test_05_calls st :
  truthy (booking_id st) = true →
  truthy (token st) = true →
  printable py (booking_id st) = true →
  calls (after py T5 st)
  = calls st
      ++ delete_request py (booking_id st) (token st)
         :: confirm_after py server st.
Proof.
  intros Hb Ht Hp. unfold after, confirm_after. open_test.
  rewrite Hb, Ht, Hp.
  split_run; rewrite <- ?app_assoc; done.
Qed.



(** ** Skips *)

(** X2.  A method is skipped exactly when the guard at its head fails,
    with the reason of that guard: the availability and authentication
    tests never, the creation test without a truthy token, the retrieval
    test without a truthy booking identifier, the update and delete
    tests without both.  Nothing that happens inside the [try], not even
    a [SkipTest] raised by a call, skips a method; and a skipped method
    has made no call and changed nothing. *)
Theorem skipped_iff_guard_fails st k t :
  suite py server !! k = Some t →
  (∀ r, result py t st = Skipped r ↔ skip_reason k st = Some r)
  ∧ (∀ r, result py t st = Skipped r → after py t st = st).
Proof.
  intros Hk.
  destruct k as [|[|[|[|[|[|k]]]]]]; simpl in Hk; simplify_eq;
    unfold result, after, skip_reason.
  - open_test. split_run; settle.
  - open_test. split_run; settle.
  - destruct (truthy (token st)) eqn:Ht.
    + open_test. rewrite Ht. split_run; settle.
    + rewrite test_02_skips by done. simpl. settle.
  - destruct (truthy (booking_id st)) eqn:Hb.
    + open_test. rewrite Hb. split_run; settle.
    + rewrite test_03_skips by done. simpl. settle.
  - destruct (precondition_cases st) as [Hc|[Hb Ht]].
    + rewrite test_04_skips by done. simpl.
      destruct Hc as [->| ->]; rewrite ?andb_false_r; simpl; settle.
    + rewrite Hb, Ht. open_test. rewrite Hb, Ht. split_run; settle.
  - destruct (precondition_cases st) as [Hc|[Hb Ht]].
    + rewrite test_05_skips by done. simpl.
      destruct Hc as [->| ->]; rewrite ?andb_false_r; simpl; settle.
    + rewrite Hb, Ht. open_test. rewrite Hb, Ht. split_run; settle.
Qed.

(** ** CheckAvailability *)

(** X3.  The availability test passes exactly when the GET of the base
    address is answered with status 200.  With any other status it
    fails, and since the assertion is inside the [try] the reason is the
    text of the failed assertion behind the words of the handler,
    [API connection failed: ], though the connection was made. *)
Theorem availability_passes_iff st :
  (result py T0 st = Passed ↔
     ∃ r, server (calls st) availability_request = inr r
          ∧ status_code r = 200)
  ∧ (∀ r,
       server (calls st) availability_request = inr r →
       status_code r ≠ 200 →
       result py T0 st
       = Failed ("API connection failed: "
                   +:+ exn_text py
                         (AssertionError
                            (NotEqual (PInt (status_code r)) (PInt 200)
                               ("API not reachable. Status: "
                                  +:+ format py
                                        (PInt (status_code r))))))).
Proof. unfold result. open_test. split_run; settle. Qed.

(** ** UpdateResource *)


Lemma dict_get_set_eq {V} k (v : V) d :
  dict_get k (dict_set k v d) = Some v.
Proof.
  induction d as [|[k' v'] d IH]; simpl.
  - by rewrite String.eqb_refl.
  - destruct (String.eqb k' k) eqn:E; simpl; by rewrite E.
Qed.

Lemma dict_get_set_ne {V} k j (v : V) d :
  k ≠ j → dict_get j (dict_set k v d) = dict_get j d.
Proof.
  intros Hne. induction d as [|[k' v'] d IH]; simpl.
  - by apply String.eqb_neq in Hne as ->.
  - destruct (String.eqb k' k) eqn:E; simpl; [|by rewrite IH].
    apply String.eqb_eq in E as ->.
    by apply String.eqb_neq in Hne as ->.
Qed.

(** X5.  Whatever dictionary the class attribute [booking_data] holds,
    the update test, once its guard has passed, adds one dictionary to
    the store and changes none: the new one has the two sentinel names,
    and on every other key the very field of the original, a nested
    dictionary being shared and not copied. *)
Theorem update_copies_any_fixture st :
  truthy (booking_id st) = true →
  truthy (token st) = true →
  ∃ copy,
    heap (after py T4 st) = heap st ++ [copy]
    ∧ dict_get "firstname" copy = Some (Val (PStr "UpdatedName"))
    ∧ dict_get "lastname" copy = Some (Val (PStr "UpdatedLastName"))
    ∧ ∀ k, k ≠ "firstname" → k ≠ "lastname" →
           dict_get k copy
           = dict_get k (deref (heap st) (booking_data st)).
Proof.
  intros Hb Ht.
  exists (dict_update sentinels (deref (heap st) (booking_data st))).
  split.
  - unfold after. open_test. rewrite Hb, Ht. simpl.
    rewrite copy_then_update. split_run; done.
  - unfold dict_update, sentinels. simpl. repeat split.
    + by rewrite dict_get_set_ne, dict_get_set_eq.
    + by rewrite dict_get_set_eq.
    + intros k H1 H2. by rewrite !dict_get_set_ne.
Qed.

(** ** Who writes what *)

Lemma later_tests_keep_attributes st :
  (token (after py T3 st) = token st
   ∧ booking_id (after py T3 st) = booking_id st)
  ∧ (token (after py T4 st) = token st
     ∧ booking_id (after py T4 st) = booking_id st)
  ∧ (token (after py T5 st) = token st
     ∧ booking_id (after py T5 st) = booking_id st).
Proof. unfold after. open_test. repeat split; split_run; done. Qed.

Lemma heap_kept st :
  heap (after py T0 st) = heap st
  ∧ heap (after py T1 st) = heap st
  ∧ heap (after py T2 st) = heap st
  ∧ heap (after py T3 st) = heap st
  ∧ heap (after py T5 st) = heap st.
Proof. unfold after. open_test. repeat split; split_run; done. Qed.

Lemma booking_data_kept t st :
  t ∈ suite py server → booking_data (after py t st) = booking_data st.
Proof.
  intros Ht. unfold suite in Ht.
  rewrite !elem_of_cons, elem_of_nil in Ht.
  destruct Ht as [->|[->|[->|[->|[->|[->|[]]]]]]];
    unfold after; open_test; split_run; done.
Qed.

(** X6.  Each part of the state has one writer: only the authentication
    test assigns [token], only the creation test assigns [booking_id],
    only the update test touches the store, and no method assigns
    [booking_data]. *)
Theorem attributes_written_by_their_method st k t :
  suite py server !! k = Some t →
  (k ≠ 1%nat → token (after py t st) = token st)
  ∧ (k ≠ 2%nat → booking_id (after py t st) = booking_id st)
  ∧ (k ≠ 4%nat → heap (after py t st) = heap st)
  ∧ booking_data (after py t st) = booking_data st.
Proof.
  intros Hk.
  split; [|split; [|split]];
    [| | |apply booking_data_kept; by eapply list_elem_of_lookup_2].
  all: destruct k as [|[|[|[|[|[|k]]]]]]; simpl in Hk; simplify_eq;
    intros Hne; try done.
  all: first
    [ apply test_00_keeps_attributes
    | apply test_01_keeps_booking_id
    | apply test_02_keeps_token
    | apply later_tests_keep_attributes
    | apply heap_kept ].
Qed.

(** ** Failures *)

(** X7.  Whatever makes a method fail, a call that raised, a status or a
    field that is not the expected one, a body that is not JSON, the
    reason of the failure is the text of the exception behind the words
    of the handler of that method: every failure passes through the
    handler, none is raised outside the [try]. *)
Theorem failure_reason_has_prefix st k t prefix reason :
  suite py server !! k = Some t →
  failure_prefix !! k = Some prefix →
  result py t st = Failed reason →
  ∃ e, reason = prefix +:+ exn_text py e.
Proof.
  intros Hk Hp.
  destruct k as [|[|[|[|[|[|k]]]]]]; simpl in Hk, Hp; simplify_eq;
    unfold result; open_test; split_run; intros; simplify_eq; eauto.
Qed.

(** ** Runs of the whole suite *)

Lemma before_succ k t :
  suite py server !! k = Some t →
  before py server (S k) = after py t (before py server k).
Proof.
  intros Hk. unfold before. by rewrite (take_S_r _ _ _ Hk), run_tests_snoc.
Qed.

(** A run of the suite, method by method. *)
Lemma suite_run :
  run_tests py (suite py server) setUpClass
  = ([result py T0 (before py server 0); result py T1 (before py server 1);
      result py T2 (before py server 2); result py T3 (before py server 3);
      result py T4 (before py server 4); result py T5 (before py server 5)],
     before py server 6).
Proof.
  apply injective_projections; [|reflexivity].
  rewrite (before_succ 4 T4), (before_succ 3 T3), (before_succ 2 T2),
    (before_succ 1 T1), (before_succ 0 T0) by reflexivity.
  change (before py server 0) with setUpClass.
  unfold suite. by rewrite !run_tests_cons_result.
Qed.

Lemma no_booking_before_creation :
  booking_id (before py server 2) = PNone.
Proof.
  rewrite (before_succ 1 T1), (before_succ 0 T0) by reflexivity.
  unfold after. rewrite test_01_keeps_booking_id.
  by rewrite (proj2 (test_00_keeps_attributes _)).
Qed.

Lemma calls_before_creation :
  calls (before py server 2) = [availability_request; auth_request].
Proof.
  rewrite (before_succ 1 T1), (before_succ 0 T0) by reflexivity.
  by rewrite test_01_calls, test_00_calls.
Qed.


(** The last three methods, started without a booking identifier. *)
Lemma no_booking_skips_the_rest :
  truthy (booking_id (before py server 3)) = false →
  result py T3 (before py server 3) = Skipped no_booking_reason
  ∧ result py T4 (before py server 4) = Skipped missing_reason
  ∧ result py T5 (before py server 5) = Skipped missing_reason
  ∧ before py server 6 = before py server 3.
Proof.
  intros Hb.
  assert (H4 : before py server 4 = before py server 3).
  { rewrite (before_succ 3 T3) by reflexivity. unfold after.
    by rewrite test_03_skips. }
  assert (H5 : before py server 5 = before py server 3).
  { rewrite (before_succ 4 T4) by reflexivity. unfold after.
    rewrite H4. rewrite test_04_skips; auto. }
  assert (H6 : before py server 6 = before py server 3).
  { rewrite (before_succ 5 T5) by reflexivity. unfold after.
    rewrite H5. rewrite test_05_skips; auto. }
  rewrite H4, H5. unfold result.
  rewrite test_03_skips, test_04_skips, test_05_skips; auto.
Qed.

(** X10.  In a run of the suite, when the authentication leaves no
    truthy token, the four methods that follow are skipped, each with
    the reason of its guard, and the run makes two calls in all: the
    availability probe and the authentication. *)
Theorem unset_token_skips_the_rest :
  truthy (token (before py server 2)) = false →
  run_tests py (suite py server) setUpClass
  = ([result py T0 (before py server 0); result py T1 (before py server 1);
      Skipped no_token_reason; Skipped no_booking_reason;
      Skipped missing_reason; Skipped missing_reason],
     before py server 2)
  ∧ calls (before py server 2) = [availability_request; auth_request].
Proof.
  intros Ht. split; [|apply calls_before_creation].
  assert (H3 : before py server 3 = before py server 2).
  { rewrite (before_succ 2 T2) by reflexivity. unfold after.
    by rewrite test_02_skips. }
  destruct no_booking_skips_the_rest as (R3 & R4 & R5 & H6).
  { by rewrite H3, no_booking_before_creation. }
  rewrite suite_run, R3, R4, R5, H6, H3. unfold result.
  by rewrite test_02_skips.
Qed.


Lemma test_04_heap st :
  fixture_intact st →
  truthy (booking_id st) = true →
  truthy (token st) = true →
  heap (after py T4 st) = heap st ++ [updated_literal 0%nat].
Proof.
  intros Hi Hb Ht. unfold after. open_update Hi Hb Ht. split_run; done.
Qed.

Lemma delete_passed_confirms st :
  result py T5 st = Passed →
  confirm_after py server st = [confirm_request py (booking_id st)].
Proof.
  destruct (precondition_cases st) as [Hc|[Hb Ht]]; unfold result.
  - by rewrite test_05_skips.
  - unfold confirm_after. open_test. rewrite Hb, Ht. split_run; done.
Qed.

(** A method that passed had its guard passed. *)
Lemma passed_guard st :
  (result py T2 st = Passed → truthy (token st) = true)
  ∧ (result py T3 st = Passed → truthy (booking_id st) = true)
  ∧ (result py T4 st = Passed →
     truthy (booking_id st) = true ∧ truthy (token st) = true)
  ∧ (result py T5 st = Passed →
     truthy (booking_id st) = true ∧ truthy (token st) = true).
Proof.
  unfold result. split; [|split; [|split]]; intros Hp.
  - destruct (truthy (token st)) eqn:E; [done|].
    by rewrite test_02_skips in Hp.
  - destruct (truthy (booking_id st)) eqn:E; [done|].
    by rewrite test_03_skips in Hp.
  - destruct (precondition_cases st) as [Hc|Hc]; [|done].
    by rewrite test_04_skips in Hp.
  - destruct (precondition_cases st) as [Hc|Hc]; [|done].
    by rewrite test_05_skips in Hp.
Qed.

(** A method that passed had printed the address of its booking. *)
Lemma passed_printed st :
  (result py T3 st = Passed → printable py (booking_id st) = true)
  ∧ (result py T4 st = Passed → printable py (booking_id st) = true)
  ∧ (result py T5 st = Passed → printable py (booking_id st) = true).
Proof.
  unfold result. split; [|split]; intros Hpass;
    destruct (printable py (booking_id st)) eqn:Hp; try done; exfalso.
  - destruct (truthy (booking_id st)) eqn:Hb;
      [|by rewrite test_03_skips in Hpass].
    revert Hpass. open_test. rewrite Hb. simpl. by rewrite Hp.
  - destruct (precondition_cases st) as [Hc|[Hb Ht]];
      [by rewrite test_04_skips in Hpass|].
    revert Hpass. open_test. rewrite Hb, Ht. simpl. by rewrite Hp.
  - destruct (precondition_cases st) as [Hc|[Hb Ht]];
      [by rewrite test_05_skips in Hpass|].
    revert Hpass. open_test. rewrite Hb, Ht. simpl. by rewrite Hp.
Qed.

Lemma all_six (a b c d e f : StepResult) x :
  [a; b; c; d; e; f] = [x; x; x; x; x; x] →
  a = x ∧ b = x ∧ c = x ∧ d = x ∧ e = x ∧ f = x.
Proof. intros H. by simplify_eq. Qed.

(** X12.  A run of the suite in which the six methods pass ends (in the
    state [before 6], by [suite_run]) having made seven calls, in this
    order: the probe of the base address, the
    authentication, the creation with the fixture as its body, the
    retrieval, the update with the two names replaced, the delete and
    its check, the last four at the address of the identifier the
    creation stored and the update and the delete with the cookie of the
    token the authentication stored; and it leaves the store one
    dictionary larger. *)
Theorem passing_run_trace :
  (run_tests py (suite py server) setUpClass).1
  = [Passed; Passed; Passed; Passed; Passed; Passed] →
  calls (before py server 6)
  = [availability_request;
     auth_request;
     create_request fixture_json;
     get_request py (booking_id (before py server 6));
     update_request py (booking_id (before py server 6))
       (token (before py server 6)) updated_json;
     delete_request py (booking_id (before py server 6))
       (token (before py server 6));
     confirm_request py (booking_id (before py server 6))]
  ∧ truthy (token (before py server 6)) = true
  ∧ truthy (booking_id (before py server 6)) = true
  ∧ heap (before py server 6)
    = heap setUpClass ++ [updated_literal 0%nat].
Proof.
  rewrite suite_run. cbn [fst].
  intros H. apply all_six in H as (_ & _ & P2 & P3 & P4 & P5).
  pose proof (reachable_intact _ (before_reachable 2)) as I2.
  pose proof (reachable_intact _ (before_reachable 4)) as I4.
  pose proof (proj1 (passed_guard _) P2) as G2.
  pose proof (proj1 (proj2 (passed_guard _)) P3) as G3.
  destruct (proj1 (proj2 (proj2 (passed_guard _))) P4) as [G4b G4t].
  destruct (proj2 (proj2 (proj2 (passed_guard _))) P5) as [G5b G5t].
  pose proof (proj1 (passed_printed _) P3) as Q3.
  pose proof (proj1 (proj2 (passed_printed _)) P4) as Q4.
  pose proof (proj2 (proj2 (passed_printed _)) P5) as Q5.
  pose proof (before_succ 2 T2 eq_refl) as E3.
  pose proof (before_succ 3 T3 eq_refl) as E4.
  pose proof (before_succ 4 T4 eq_refl) as E5.
  pose proof (before_succ 5 T5 eq_refl) as E6.
  destruct (later_tests_keep_attributes (before py server 3))
    as ((T3t & T3b) & _).
  destruct (later_tests_keep_attributes (before py server 4))
    as (_ & (T4t & T4b) & _).
  destruct (later_tests_keep_attributes (before py server 5))
    as (_ & _ & (T5t & T5b)).
  rewrite <- E4 in T3t, T3b. rewrite <- E5 in T4t, T4b.
  rewrite <- E6 in T5t, T5b.
  pose proof (test_02_keeps_token (before py server 2)) as T2t.
  fold (after py T2 (before py server 2)) in T2t. rewrite <- E3 in T2t.
  assert (Hc : calls (before py server 6)
               = calls (before py server 2)
                   ++ [create_request fixture_json;
                       get_request py (booking_id (before py server 3));
                       update_request py (booking_id (before py server 4))
                         (token (before py server 4)) updated_json;
                       delete_request py (booking_id (before py server 5))
                         (token (before py server 5));
                       confirm_request py
                         (booking_id (before py server 5))]).
  { rewrite E6, test_05_calls, (delete_passed_confirms _ P5) by done.
    rewrite E5, test_04_calls by done.
    rewrite E4, test_03_calls by done.
    rewrite E3, test_02_calls by done.
    by rewrite <- !app_assoc. }
  assert (Hh : heap (before py server 6)
               = heap (before py server 2) ++ [updated_literal 0%nat]).
  { rewrite E6, (proj2 (proj2 (proj2 (proj2 (heap_kept _))))).
    rewrite E5, test_04_heap by done.
    rewrite E4, (proj1 (proj2 (proj2 (proj2 (heap_kept _))))).
    by rewrite E3, (proj1 (proj2 (proj2 (heap_kept _)))). }
  assert (H2 : heap (before py server 2) = heap setUpClass).
  { rewrite (before_succ 1 T1), (before_succ 0 T0) by reflexivity.
    by rewrite (proj1 (proj2 (heap_kept _))), (proj1 (heap_kept _)). }
  rewrite Hc, Hh, H2, calls_before_creation.
  rewrite ?T5t, ?T5b, ?T4t, ?T4b, ?T3t, ?T3b.
  split; [reflexivity|]. split; [by rewrite T2t|]. split; [exact G3|].
  reflexivity.
Qed.

End Properties.

(** * The properties on concrete runs *)






(** C4 fails on the code: the answer to the authentication has status 200
    and the token 12345; the test fails, on the slice of its last print,
    after it has stored the token, and the creation test that follows is
    not skipped. *)
Theorem failed_authentication_stores_token (py : python) :
  result py (test_01_authenticate py numeric_token_booker)
    (before py numeric_token_booker 1)
  = Failed ("Authentication failed: "
              +:+ exn_text py (TypeError (PInt 12345) (SliceTo 5)))
  ∧ token (before py numeric_token_booker 2) = PInt 12345
  ∧ result py (test_02_create_booking py numeric_token_booker)
      (before py numeric_token_booker 2) = Passed.
Proof. repeat split; vm_compute; reflexivity. Qed.

Lemma fixture_never_mutated_witness :
  fixture_intact (after plain (test_04_update_booking plain good_booker)
                    (before plain good_booker 4))
  ∧ heap (after plain (test_04_update_booking plain good_booker)
            (before plain good_booker 4))
    = heap (before plain good_booker 4) ++ [updated_literal 0%nat].
Proof.
  destruct (fixture_never_mutated plain good_booker _
              (before_reachable plain good_booker 4)) as (_ & _ & H1 & H2).
  split; [exact H1|]. apply (H2 eq_refl eq_refl).
Defined.

(** C6 fails on the code: the check that follows the delete is sent with
    no timeout. *)
Theorem delete_check_carries_no_timeout :
  calls (after plain (test_05_delete_booking plain good_booker)
           (before plain good_booker 5))
  = calls (before plain good_booker 5)
      ++ [delete_request plain (PInt 7) (PStr "abc123def456");
          confirm_request plain (PInt 7)]
  ∧ timeout (confirm_request plain (PInt 7)) = None.
Proof. split; vm_compute; reflexivity. Qed.


Lemma create_without_token_is_skipped_witness :
  token setUpClass = PNone
  ∧ run_test plain (test_02_create_booking plain good_booker) setUpClass
    = (Skipped "No authentication token available", setUpClass).
Proof.
  split; [reflexivity|].
  apply (create_without_token_is_skipped plain good_booker). reflexivity.
Defined.

(** C8, as stated, fails: the reason of the skip is another text. *)
Lemma create_skip_reason_is_not_the_stated_one :
  result plain (test_02_create_booking plain good_booker) setUpClass
  ≠ Skipped "no authentication token".
Proof. vm_compute. discriminate. Qed.


Lemma falsy_value_skips_like_unset_witness :
  booking_id (before plain zero_booker 3) = PInt 0
  ∧ skips_like_unset plain (test_03_get_booking plain zero_booker)
      no_booking_reason (before plain zero_booker 3)
      (with_booking_id PNone (before plain zero_booker 3))
  ∧ token (before plain empty_token_booker 3) = PStr ""
  ∧ run_test plain (test_03_get_booking plain empty_token_booker)
      (before plain empty_token_booker 3)
    = (Skipped no_booking_reason, before plain empty_token_booker 3).
Proof.
  split; [reflexivity|]. split.
  - apply (falsy_value_skips_like_unset plain zero_booker
             (before plain zero_booker 3)). reflexivity.
  - split; [reflexivity|].
    apply (falsy_value_skips_like_unset plain empty_token_booker setUpClass).
    reflexivity.
Defined.

(** The slip on a concrete run: a token that cannot be printed is stored
    by an authentication that fails. *)
Lemma surrogate_token_is_stored_then_fails :
  (∃ reason,
     result plain (test_01_authenticate plain surrogate_token_booker)
       (before plain surrogate_token_booker 1) = Failed reason)
  ∧ token (before plain surrogate_token_booker 2) = PStr lone_surrogate.
Proof.
  destruct (authenticate_stores_then_fails plain surrogate_token_booker
              (before plain surrogate_token_booker 1) _ _ lone_surrogate
              eq_refl eq_refl eq_refl eq_refl eq_refl) as [Hr Ht].
  split; [by eexists|exact Ht].
Defined.

(** The same for an identifier: the creation fails having stored it, and
    the retrieval that follows ends in an error, having made no call. *)
Lemma surrogate_identifier_is_stored_then_fails :
  (∃ reason,
     result plain (test_02_create_booking plain surrogate_id_booker)
       (before plain surrogate_id_booker 2) = Failed reason)
  ∧ booking_id (before plain surrogate_id_booker 3) = PStr lone_surrogate
  ∧ (∃ e, result plain (test_03_get_booking plain surrogate_id_booker)
            (before plain surrogate_id_booker 3) = Errored e)
  ∧ calls (before plain surrogate_id_booker 4)
    = calls (before plain surrogate_id_booker 3).
Proof.
  assert (Hi : fixture_intact (before plain surrogate_id_booker 2)).
  { split; [reflexivity|]. by exists []. }
  destruct (create_stores_then_fails plain surrogate_id_booker
              (before plain surrogate_id_booker 2) _ _ lone_surrogate
              Hi eq_refl eq_refl eq_refl eq_refl eq_refl eq_refl)
    as [Hr Hb].
  destruct (unprintable_address_is_an_error plain surrogate_id_booker
              (before plain surrogate_id_booker 3)
              eq_refl eq_refl eq_refl) as ((He & Hc) & _).
  split; [by eexists|]. split; [exact Hb|]. split; [by eexists|exact Hc].
Defined.

(** * The further properties on concrete runs *)


Lemma skipped_iff_guard_fails_witness :
  result plain (test_02_create_booking plain good_booker) setUpClass
  = Skipped no_token_reason.
Proof.
  apply (skipped_iff_guard_fails plain good_booker setUpClass 2%nat _ eq_refl).
  reflexivity.
Defined.


Lemma update_copies_any_fixture_witness :
  ∃ copy,
    heap (after plain (test_04_update_booking plain good_booker)
            (before plain good_booker 4))
    = heap (before plain good_booker 4) ++ [copy]
    ∧ dict_get "firstname" copy = Some (Val (PStr "UpdatedName"))
    ∧ dict_get "totalprice" copy = Some (Val (PInt 100)).
Proof.
  destruct (update_copies_any_fixture plain good_booker
              (before plain good_booker 4) eq_refl eq_refl)
    as (copy & Hh & Hf & _ & Hk).
  exists copy. split; [exact Hh|]. split; [exact Hf|].
  rewrite (Hk "totalprice") by discriminate. reflexivity.
Defined.

Lemma attributes_written_by_their_method_witness :
  token (after plain (test_03_get_booking plain good_booker)
           (before plain good_booker 3))
  = token (before plain good_booker 3).
Proof.
  destruct (attributes_written_by_their_method plain good_booker
              (before plain good_booker 3) 3%nat _ eq_refl) as (Ht & _).
  apply Ht. discriminate.
Defined.

Lemma failure_reason_has_prefix_witness :
  ∃ e, "API connection failed: Connection refused"
       = "API connection failed: " +:+ exn_text plain e.
Proof.
  apply (failure_reason_has_prefix plain no_service setUpClass 0%nat
           _ _ _ eq_refl eq_refl).
  reflexivity.
Defined.

Lemma calls_carry_timeout_witness :
  ∃ new,
    calls (after plain (test_00_verify_api_available plain good_booker)
             setUpClass)
    = calls setUpClass ++ new
    ∧ Forall (fun r => timeout r = Some 5
                       ∨ r = confirm_request plain (booking_id setUpClass))
        new.
Proof.
  apply (calls_carry_timeout plain good_booker _ setUpClass).
  - split; [reflexivity|]. by exists [].
  - unfold suite. constructor.
Defined.

Lemma unset_token_skips_the_rest_witness :
  truthy (token (before plain refusing_booker 2)) = false
  ∧ (run_tests plain (suite plain refusing_booker) setUpClass).1
    = [Passed;
       Failed ("Authentication failed: 403 != 200 : Auth failed. Status: 403");
       Skipped no_token_reason; Skipped no_booking_reason;
       Skipped missing_reason; Skipped missing_reason]
  ∧ calls (before plain refusing_booker 2)
    = [availability_request; auth_request].
Proof.
  split; [reflexivity|].
  destruct (unset_token_skips_the_rest plain refusing_booker eq_refl)
    as [Hrun Hcalls].
  split; [|exact Hcalls]. rewrite Hrun. reflexivity.
Defined.


Lemma passing_run_trace_witness :
  calls (before plain good_booker 6)
  = [availability_request;
     auth_request;
     create_request fixture_json;
     get_request plain (PInt 7);
     update_request plain (PInt 7) (PStr "abc123def456") updated_json;
     delete_request plain (PInt 7) (PStr "abc123def456");
     confirm_request plain (PInt 7)].
Proof.
  destruct (passing_run_trace plain good_booker eq_refl) as (Hc & _).
  rewrite Hc. reflexivity.
Defined.
